(** * Build-definition resource of the Azure DevOps Terraform provider

    A shallow embedding of [azuredevops/resource_build_definition.go]: the
    translation between the Terraform resource data and the SDK's
    [build.BuildDefinition] ([expandBuildDefinition], [flattenBuildDefinition],
    [flattenRepository], [flattenVariableGroups]) and the four lifecycle
    callbacks built on top of it.

    Go values are modelled as the code has them: a pointer field is an
    [option], [map[string]interface{}] is a [gmap string iface], an [error]
    is its message, and a call that can return an error or panic returns an
    [outcome]. *)

From Stdlib Require Import ZArith Lia Ascii String DecimalString DecimalPos.
From stdpp Require Import base option strings list gmap.

Local Open Scope string_scope.
Local Open Scope Z_scope.

(** ** Results of Go calls *)

(** A Go [error] value is represented by its message ([err.Error()]). *)
Definition error := string.

(** What a call yields: its results on a [nil] error, a non-nil [error], or
    a run-time panic (failed single-value type assertion, nil dereference). *)
Inductive outcome (A : Type) : Type :=
  | Ok (a : A)
  | Err (e : error)
  | Panic.
Arguments Ok {A} a.
Arguments Err {A} e.
Arguments Panic {A}.

Definition outcome_bind {A B} (f : A -> outcome B) (m : outcome A) : outcome B :=
  match m with
  | Ok a => f a
  | Err e => Err e
  | Panic => Panic
  end.

#[export] Instance outcome_mret : MRet outcome := fun _ a => Ok a.
#[export] Instance outcome_mbind : MBind outcome := fun _ _ f m => outcome_bind f m.

(** [*p] for a pointer [p]: a nil pointer panics. *)
Definition deref {A} (p : option A) : outcome A :=
  match p with
  | Some a => Ok a
  | None => Panic
  end.

(** ** The pieces of the Go standard library the resource calls *)

Module strings.

Definition RuneSelf : Z := 128.

Definition byteOf (c : ascii) : Z := Z.of_N (N_of_ascii c).

Section EqualFold.
(** [strings.EqualFold] compares byte by byte while both strings are
    ASCII and switches to rune-wise Unicode simple folding at the first
    byte [>= RuneSelf]. That second loop needs the Unicode tables and is
    taken as a parameter, applied to the two remaining suffixes. *)
Variable unicodeFold : string -> string -> bool.

Fixpoint EqualFold (s t : string) : bool :=
  match s, t with
  | String a s', String b t' =>
      let sr := byteOf a in
      let tr := byteOf b in
      if RuneSelf <=? Z.lor sr tr then unicodeFold s t
      else if tr =? sr then EqualFold s' t'
      else
        (* make sr < tr to simplify what follows *)
        let lo := if tr <? sr then tr else sr in
        let hi := if tr <? sr then sr else tr in
        (* ASCII only, lo/hi must be upper/lower case *)
        if (65 <=? lo) && (lo <=? 90) && (hi =? lo + 97 - 65)
        then EqualFold s' t'
        else false
  | EmptyString, EmptyString => true
  | _, _ => false
  end.
End EqualFold.

End strings.

Module strconv.

Definition maxInt : Z := 2 ^ 63 - 1.
Definition minInt : Z := - 2 ^ 63.

(** [ch -= '0'; if ch > 9 { syntax error }] on a byte. *)
Definition digit (c : ascii) : option Z :=
  let ch := (strings.byteOf c - 48) mod 256 in
  if 9 <? ch then None else Some ch.

Fixpoint digits (s : string) (n : Z) : option Z :=
  match s with
  | EmptyString => Some n
  | String c s' =>
      match digit c with
      | Some ch => digits s' (n * 10 + ch)
      | None => None
      end
  end.

Definition isSign (c : ascii) : bool :=
  (strings.byteOf c =? 45) || (strings.byteOf c =? 43).

(** [strconv.Atoi] for a 64-bit [int]: an optional sign followed by at
    least one decimal digit, the value within the range of [int]; any
    other input is an error ([None]). *)
Definition Atoi (s : string) : option Z :=
  match s with
  | EmptyString => None
  | String c rest =>
      let body := if isSign c then rest else s in
      match body with
      | EmptyString => None
      | _ =>
          match digits body 0 with
          | Some n =>
              let n := if strings.byteOf c =? 45 then - n else n in
              if (minInt <=? n) && (n <=? maxInt) then Some n else None
          | None => None
          end
      end
  end.

(** [strconv.Itoa]: the decimal rendering, with a leading [-] below zero. *)
Definition Itoa (n : Z) : string := NilZero.string_of_int (Z.to_int n).

End strconv.

Module fmt.
(** [fmt.Sprintf(prefix + "%s" + suffix, s)]. *)
Definition Sprintf_s (prefix suffix s : string) : string := prefix +:+ s +:+ suffix.

(** [fmt.Errorf(prefix + "%+v", err)] for a plain error: the message of
    [err] after the prefix. *)
Definition Errorf_v (prefix : string) (err : error) : error := prefix +:+ err.

(** [fmt.Sprintf("%d", n)]: the decimal rendering of an [int]. *)
Definition Sprintf_d (n : Z) : string := strconv.Itoa n.
End fmt.

(** ** Dynamically typed values *)

(** A value of type [interface{}], as far as the resource looks into it:
    the nil interface, a string, an int or a bool. *)
Inductive iface : Type :=
  | INil
  | IString (s : string)
  | IInt (n : Z)
  | IBool (b : bool).

(** [m[key].(string)]: indexing a missing key gives the nil interface, and
    the single-value assertion panics on anything that is not a string. *)
Definition assertString (v : option iface) : outcome string :=
  match v with
  | Some (IString s) => Ok s
  | _ => Panic
  end.

(** ** The SDK's build types

    Package [build] of the Azure DevOps Go SDK is an external dependency.
    The structs keep the fields the resource reads or writes; every field
    is a pointer there, hence an [option] here. *)
Module build.

Record VariableGroup := { vg_Id : option Z }.

Record BuildRepository := {
  repo_Url : option string;
  repo_Id : option string;
  repo_Name : option string;
  repo_DefaultBranch : option string;
  repo_Type : option string;
  repo_Properties : option (gmap string string);
}.

Record YamlProcess := { YamlFilename : option string }.

Record TaskAgentPoolReference := { pool_Name : option string }.

Record AgentPoolQueue := {
  queue_Name : option string;
  queue_Pool : option TaskAgentPoolReference;
}.

Inductive DefinitionQueueStatus := QueueStatusDisabled | QueueStatusEnabled | QueueStatusPaused.
Inductive DefinitionType := TypeBuild | TypeXaml.
Inductive DefinitionQuality := QualityDefinition | QualityDraft.

(** The [Process interface{}] field by dynamic type: the nil interface, a
    [map[string]interface{}] (what JSON decoding leaves), a
    [*build.YamlProcess] (possibly a nil pointer), or any other type. *)
Inductive process :=
  | ProcessNil
  | ProcessMap (m : gmap string iface)
  | ProcessYaml (p : option YamlProcess)
  | ProcessOther.

Record BuildDefinition := {
  def_Id : option Z;
  def_Name : option string;
  def_Path : option string;
  def_Revision : option Z;
  def_Repository : option BuildRepository;
  def_Process : process;
  def_Queue : option AgentPoolQueue;
  def_QueueStatus : option DefinitionQueueStatus;
  def_Type : option DefinitionType;
  def_Quality : option DefinitionQuality;
  def_VariableGroups : option (list VariableGroup);
}.

End build.
Import build.

(** ** Helpers of this repository that live outside the resource file *)

Module converter.
(** Modelled from the spec: package [utils/converter] is not part of the
    sources at hand. [String] and [Int] are used to fill the SDK's
    [*string] and [*int] fields from a value, i.e. they return a pointer
    to their argument. *)
Definition String (value : string) : option string := Some value.
Definition Int (value : Z) : option Z := Some value.
End converter.

(** ** Terraform resource data

    [schema.ResourceData] restricted to this resource's schema. Top-level
    attributes have the Go type the schema gives them; the [repository] set
    is kept as the list its [List()] method returns, each element a
    [map[string]interface{}] as the code asserts. *)
Record ResourceData := {
  rd_Id : string;
  rd_project_id : string;
  rd_revision : Z;
  rd_name : string;
  rd_path : string;
  rd_variable_groups : list Z;
  rd_agent_pool_name : string;
  rd_repository : list (gmap string iface);
}.

Module schema.
(** [d.SetId(id)]. *)
Definition SetId (d : ResourceData) (id : string) : ResourceData :=
  {| rd_Id := id; rd_project_id := rd_project_id d; rd_revision := rd_revision d;
     rd_name := rd_name d; rd_path := rd_path d;
     rd_variable_groups := rd_variable_groups d;
     rd_agent_pool_name := rd_agent_pool_name d; rd_repository := rd_repository d |}.

(** [d.Set(key, value)], one function per key. A pointer argument is
    dereferenced by [Set]; a nil pointer clears the attribute to the zero
    value of its type. *)
Definition Set_project_id (d : ResourceData) (v : string) : ResourceData :=
  {| rd_Id := rd_Id d; rd_project_id := v; rd_revision := rd_revision d;
     rd_name := rd_name d; rd_path := rd_path d;
     rd_variable_groups := rd_variable_groups d;
     rd_agent_pool_name := rd_agent_pool_name d; rd_repository := rd_repository d |}.

Definition Set_name (d : ResourceData) (v : option string) : ResourceData :=
  {| rd_Id := rd_Id d; rd_project_id := rd_project_id d; rd_revision := rd_revision d;
     rd_name := default "" v; rd_path := rd_path d;
     rd_variable_groups := rd_variable_groups d;
     rd_agent_pool_name := rd_agent_pool_name d; rd_repository := rd_repository d |}.

Definition Set_path (d : ResourceData) (v : option string) : ResourceData :=
  {| rd_Id := rd_Id d; rd_project_id := rd_project_id d; rd_revision := rd_revision d;
     rd_name := rd_name d; rd_path := default "" v;
     rd_variable_groups := rd_variable_groups d;
     rd_agent_pool_name := rd_agent_pool_name d; rd_repository := rd_repository d |}.

Definition Set_agent_pool_name (d : ResourceData) (v : option string) : ResourceData :=
  {| rd_Id := rd_Id d; rd_project_id := rd_project_id d; rd_revision := rd_revision d;
     rd_name := rd_name d; rd_path := rd_path d;
     rd_variable_groups := rd_variable_groups d;
     rd_agent_pool_name := default "" v; rd_repository := rd_repository d |}.

Definition Set_revision (d : ResourceData) (v : Z) : ResourceData :=
  {| rd_Id := rd_Id d; rd_project_id := rd_project_id d; rd_revision := v;
     rd_name := rd_name d; rd_path := rd_path d;
     rd_variable_groups := rd_variable_groups d;
     rd_agent_pool_name := rd_agent_pool_name d; rd_repository := rd_repository d |}.

(** [d.Set("repository", v)] and [d.Set("variable_groups", v)] return an
    [error] in Go; a value of the shape the schema declares is accepted
    and the returned error is nil. *)
Definition Set_repository (d : ResourceData) (v : list (gmap string iface))
    : outcome ResourceData :=
  Ok {| rd_Id := rd_Id d; rd_project_id := rd_project_id d; rd_revision := rd_revision d;
        rd_name := rd_name d; rd_path := rd_path d;
        rd_variable_groups := rd_variable_groups d;
        rd_agent_pool_name := rd_agent_pool_name d; rd_repository := v |}.

Definition Set_variable_groups (d : ResourceData) (v : list Z) : outcome ResourceData :=
  Ok {| rd_Id := rd_Id d; rd_project_id := rd_project_id d; rd_revision := rd_revision d;
        rd_name := rd_name d; rd_path := rd_path d;
        rd_variable_groups := v;
        rd_agent_pool_name := rd_agent_pool_name d; rd_repository := rd_repository d |}.
End schema.

(** ** The mapping translator *)

Section translator.

(** The Unicode half of [strings.EqualFold], see above. *)
Variable unicodeFold : string -> string -> bool.

Definition buildVariableGroup (id : Z) : VariableGroup :=
  {| vg_Id := Some id |}.

Definition flattenVariableGroups (buildDefinition : BuildDefinition) : outcome (list Z) :=
  match def_VariableGroups buildDefinition with
  | None => Ok []
  | Some groups =>
      (fix loop (gs : list VariableGroup) : outcome (list Z) :=
         match gs with
         | [] => Ok []
         | variableGroup :: rest =>
             id ← deref (vg_Id variableGroup);
             ids ← loop rest;
             Ok (id :: ids)
         end) groups
  end.

Definition flattenRepository (buildDefiniton : BuildDefinition)
    : outcome (list (gmap string iface)) :=
  let yamlFilePath := "" in
  yamlFilePath ←
    match def_Process buildDefiniton with
    | ProcessMap processMap => assertString (processMap !! "yamlFilename")
    | _ => Ok yamlFilePath
    end;
  yamlFilePath ←
    match def_Process buildDefiniton with
    | ProcessYaml yamlProcess =>
        yamlProcess ← deref yamlProcess;
        deref (YamlFilename yamlProcess)
    | _ => Ok yamlFilePath
    end;
  repository ← deref (def_Repository buildDefiniton);
  repo_name ← deref (repo_Name repository);
  repo_type ← deref (repo_Type repository);
  branch_name ← deref (repo_DefaultBranch repository);
  properties ← deref (repo_Properties repository);
  Ok [ <["yml_path" := IString yamlFilePath]>
       (<["repo_name" := IString repo_name]>
       (<["repo_type" := IString repo_type]>
       (<["branch_name" := IString branch_name]>
       (<["service_connection_id" :=
            IString (default "" (properties !! "connectedServiceId"))]> ∅)))) ].

Definition flattenBuildDefinition (d : ResourceData) (buildDefinition : BuildDefinition)
    (projectID : string) : outcome ResourceData :=
  id ← deref (def_Id buildDefinition);
  let d := schema.SetId d (strconv.Itoa id) in
  let d := schema.Set_project_id d projectID in
  let d := schema.Set_name d (def_Name buildDefinition) in
  let d := schema.Set_path d (def_Path buildDefinition) in
  queue ← deref (def_Queue buildDefinition);
  pool ← deref (queue_Pool queue);
  let d := schema.Set_agent_pool_name d (pool_Name pool) in
  let revision :=
    match def_Revision buildDefinition with
    | Some r => r
    | None => 0
    end in
  let d := schema.Set_revision d revision in
  repository ← flattenRepository buildDefinition;
  d ← schema.Set_repository d repository;
  variableGroups ← flattenVariableGroups buildDefinition;
  d ← schema.Set_variable_groups d variableGroups;
  Ok d.

Definition expandBuildDefinition (d : ResourceData) : outcome (BuildDefinition * string) :=
  let projectID := rd_project_id d in
  let repositories := rd_repository d in
  let variableGroups := map buildVariableGroup (rd_variable_groups d) in
  (* Note: If configured, this will be of length 1 based on the schema definition above. *)
  if negb (length repositories =? 1)%nat then
    Err "Unexpectedly did not find repository metadata in the resource data"
  else
    repository ← deref (repositories !! 0%nat);
    repoName ← assertString (repository !! "repo_name");
    repoType ← assertString (repository !! "repo_type");
    let repoURL :=
      if strings.EqualFold unicodeFold repoType "github"
      then fmt.Sprintf_s "https://github.com/" ".git" repoName
      else "" in
    (* Look for the ID. This may not exist if we are within the context of
       a "create" operation, so it is OK if it is missing. *)
    let buildDefinitionReference := strconv.Atoi (rd_Id d) in
    let agentPoolName := rd_agent_pool_name d in
    branch_name ← assertString (repository !! "branch_name");
    service_connection_id ← assertString (repository !! "service_connection_id");
    yml_path ← assertString (repository !! "yml_path");
    Ok ({| def_Id := buildDefinitionReference;
           def_Name := converter.String (rd_name d);
           def_Path := converter.String (rd_path d);
           def_Revision := converter.Int (rd_revision d);
           def_Repository := Some
             {| repo_Url := Some repoURL;
                repo_Id := Some repoName;
                repo_Name := Some repoName;
                repo_DefaultBranch := converter.String branch_name;
                repo_Type := Some repoType;
                repo_Properties := Some {[ "connectedServiceId" := service_connection_id ]} |};
           def_Process := ProcessYaml (Some {| YamlFilename := converter.String yml_path |});
           def_Queue := Some
             {| queue_Name := Some agentPoolName;
                queue_Pool := Some {| pool_Name := Some agentPoolName |} |};
           def_QueueStatus := Some QueueStatusEnabled;
           def_Type := Some TypeBuild;
           def_Quality := Some QualityDefinition;
           def_VariableGroups := Some variableGroups |},
        projectID).

End translator.

(** ** The remote build API and the lifecycle callbacks *)

(** The calls the resource issues through [clients.BuildClient]. *)
Inductive RemoteCall : Type :=
  | CallCreateDefinition (definition : BuildDefinition) (project : string)
  | CallGetDefinition (project : string) (definitionId : Z)
  | CallUpdateDefinition (definition : BuildDefinition) (project : string)
      (definitionId : option Z)
  | CallDeleteDefinition (project : string) (definitionId : Z).

(** The SDK client, an external collaborator: each method is a function of
    the server's state [S], returning the new state and the call's result. *)
Record BuildClient (S : Type) : Type := {
  CreateDefinition : BuildDefinition -> string -> S -> S * outcome BuildDefinition;
  GetDefinition : string -> Z -> S -> S * outcome BuildDefinition;
  UpdateDefinition : BuildDefinition -> string -> option Z -> S -> S * outcome BuildDefinition;
  DeleteDefinition : string -> Z -> S -> S * outcome unit;
}.
Arguments CreateDefinition {S} _ _ _ _.
Arguments GetDefinition {S} _ _ _ _.
Arguments UpdateDefinition {S} _ _ _ _ _.
Arguments DeleteDefinition {S} _ _ _ _.

(** What a lifecycle callback works on: the resource data [d], the server
    behind the client, and the log of remote calls issued so far. *)
Record State (S : Type) : Type := {
  st_data : ResourceData;
  st_server : S;
  st_calls : list RemoteCall;
}.
Arguments st_data {S} _.
Arguments st_server {S} _.
Arguments st_calls {S} _.

(** A callback returns an [error] ([None] for nil) or panics. *)
Inductive result (S : Type) : Type :=
  | Returned (err : option error) (st : State S)
  | Panicked.
Arguments Returned {S} err st.
Arguments Panicked {S}.

Section lifecycle.

Variable unicodeFold : string -> string -> bool.
Context {S : Type}.
Variable clients : BuildClient S.

(** [tfhelper.ParseProjectIDAndResourceID], a helper of this repository
    outside the resource file, taken as a parameter: from the resource
    data it yields the project ID and the definition ID, or an error. *)
Variable ParseProjectIDAndResourceID : ResourceData -> outcome (string * Z).

Definition withData (st : State S) (d : ResourceData) : State S :=
  {| st_data := d; st_server := st_server st; st_calls := st_calls st |}.

(** Issuing a remote call: the server moves on and the call is logged. *)
Definition remote {A} (call : RemoteCall) (run : S -> S * outcome A) (st : State S)
    : State S * outcome A :=
  let '(server, r) := run (st_server st) in
  ({| st_data := st_data st; st_server := server; st_calls := st_calls st ++ [call] |}, r).

Definition createBuildDefinition (buildDefinition : BuildDefinition) (project : string)
    (st : State S) : State S * outcome BuildDefinition :=
  remote (CallCreateDefinition buildDefinition project)
         (CreateDefinition clients buildDefinition project) st.

Definition resourceBuildDefinitionRead (st : State S) : result S :=
  match ParseProjectIDAndResourceID (st_data st) with
  | Panic => Panicked
  | Err err => Returned (Some err) st
  | Ok (projectID, buildDefinitionID) =>
      let '(st, r) :=
        remote (CallGetDefinition projectID buildDefinitionID)
               (GetDefinition clients projectID buildDefinitionID) st in
      match r with
      | Panic => Panicked
      | Err err => Returned (Some err) st
      | Ok buildDefinition =>
          match flattenBuildDefinition (st_data st) buildDefinition projectID with
          | Panic => Panicked
          | Err err =>
              Returned (Some (fmt.Errorf_v "Error flattening Build Definition: " err)) st
          | Ok d => Returned None (withData st d)
          end
      end
  end.

Definition resourceBuildDefinitionCreate (st : State S) : result S :=
  match expandBuildDefinition unicodeFold (st_data st) with
  | Panic => Panicked
  | Err err =>
      Returned (Some (fmt.Errorf_v "Error creating resource Build Definition: " err)) st
  | Ok (buildDefinition, projectID) =>
      let '(st, r) := createBuildDefinition buildDefinition projectID st in
      match r with
      | Panic => Panicked
      | Err err =>
          Returned (Some (fmt.Errorf_v "Error creating resource Build Definition: " err)) st
      | Ok createdBuildDefinition =>
          match flattenBuildDefinition (st_data st) createdBuildDefinition projectID with
          | Panic => Panicked
          | Err err =>
              Returned (Some (fmt.Errorf_v "Error flattening Build Definition: " err)) st
          | Ok d => resourceBuildDefinitionRead (withData st d)
          end
      end
  end.

Definition resourceBuildDefinitionDelete (st : State S) : result S :=
  if String.eqb (rd_Id (st_data st)) "" then Returned None st
  else
    match ParseProjectIDAndResourceID (st_data st) with
    | Panic => Panicked
    | Err err => Returned (Some err) st
    | Ok (projectID, buildDefinitionID) =>
        let '(st, r) :=
          remote (CallDeleteDefinition projectID buildDefinitionID)
                 (DeleteDefinition clients projectID buildDefinitionID) st in
        match r with
        | Panic => Panicked
        | Err err => Returned (Some err) st
        | Ok _ => Returned None st
        end
    end.

Definition resourceBuildDefinitionUpdate (st : State S) : result S :=
  match expandBuildDefinition unicodeFold (st_data st) with
  | Panic => Panicked
  | Err err => Returned (Some err) st
  | Ok (buildDefinition, projectID) =>
      let '(st, r) :=
        remote (CallUpdateDefinition buildDefinition projectID (def_Id buildDefinition))
               (UpdateDefinition clients buildDefinition projectID (def_Id buildDefinition))
               st in
      match r with
      | Panic => Panicked
      | Err err => Returned (Some err) st
      | Ok updatedBuildDefinition =>
          match flattenBuildDefinition (st_data st) updatedBuildDefinition projectID with
          | Panic => Panicked
          | Err err =>
              Returned (Some (fmt.Errorf_v "Error flattening Build Definition: " err)) st
          | Ok d => Returned None (withData st d)
          end
      end
  end.

End lifecycle.

(** ** Vocabulary of the properties *)

(** The five fields of a [repository] entry, each held as a string. *)
Definition repositoryFields (m : gmap string iface)
    (yml_path repo_name repo_type branch_name service_connection_id : string) : Prop :=
  m !! "yml_path" = Some (IString yml_path) ∧
  m !! "repo_name" = Some (IString repo_name) ∧
  m !! "repo_type" = Some (IString repo_type) ∧
  m !! "branch_name" = Some (IString branch_name) ∧
  m !! "service_connection_id" = Some (IString service_connection_id).

(** The server's answer to an expanded request: the request itself with the
    ID and the revision the server assigns. *)
Definition roundTripServerObject (id : Z) (revision : option Z)
    (request : BuildDefinition) : BuildDefinition :=
  {| def_Id := Some id;
     def_Name := def_Name request;
     def_Path := def_Path request;
     def_Revision := revision;
     def_Repository := def_Repository request;
     def_Process := def_Process request;
     def_Queue := def_Queue request;
     def_QueueStatus := def_QueueStatus request;
     def_Type := def_Type request;
     def_Quality := def_Quality request;
     def_VariableGroups := def_VariableGroups request |}.

(** The same server object with another [Process]. *)
Definition withProcess (p : process) (bd : BuildDefinition) : BuildDefinition :=
  {| def_Id := def_Id bd;
     def_Name := def_Name bd;
     def_Path := def_Path bd;
     def_Revision := def_Revision bd;
     def_Repository := def_Repository bd;
     def_Process := p;
     def_Queue := def_Queue bd;
     def_QueueStatus := def_QueueStatus bd;
     def_Type := def_Type bd;
     def_Quality := def_Quality bd;
     def_VariableGroups := def_VariableGroups bd |}.

(** Which server objects Flatten can read: every pointer it dereferences is
    set and the process, when of a probed shape, carries its filename. *)
Definition processReadable (p : process) : bool :=
  match p with
  | ProcessMap m =>
      match m !! "yamlFilename" with
      | Some (IString _) => true
      | _ => false
      end
  | ProcessYaml (Some y) => bool_decide (is_Some (YamlFilename y))
  | ProcessYaml None => false
  | ProcessNil | ProcessOther => true
  end.

Definition repositoryReadable (r : option BuildRepository) : bool :=
  match r with
  | Some r =>
      bool_decide (is_Some (repo_Name r)) && bool_decide (is_Some (repo_Type r)) &&
      bool_decide (is_Some (repo_DefaultBranch r)) &&
      match repo_Properties r with Some _ => true | None => false end
  | None => false
  end.

Definition queueReadable (q : option AgentPoolQueue) : bool :=
  match q with
  | Some q => match queue_Pool q with Some _ => true | None => false end
  | None => false
  end.

Definition groupsReadable (gs : option (list VariableGroup)) : bool :=
  match gs with
  | Some gs => forallb (fun g => bool_decide (is_Some (vg_Id g))) gs
  | None => true
  end.

Definition flattenable (bd : BuildDefinition) : bool :=
  bool_decide (is_Some (def_Id bd)) && queueReadable (def_Queue bd) &&
  processReadable (def_Process bd) && repositoryReadable (def_Repository bd) &&
  groupsReadable (def_VariableGroups bd).

(** "Case-insensitively equal", said directly: byte-wise equality after
    mapping [A]..[Z] to [a]..[z]. *)
Definition lowerByte (b : Z) : Z :=
  if (65 <=? b) && (b <=? 90) then b + 32 else b.

Fixpoint equalIgnoringCase (s t : string) : bool :=
  match s, t with
  | String a s', String b t' =>
      (lowerByte (strings.byteOf a) =? lowerByte (strings.byteOf b))
      && equalIgnoringCase s' t'
  | EmptyString, EmptyString => true
  | _, _ => false
  end.

Fixpoint isASCII (s : string) : bool :=
  match s with
  | String a s' => (strings.byteOf a <? strings.RuneSelf) && isASCII s'
  | EmptyString => true
  end.

(** What Expand builds from a config with one repository entry whose five
    fields are strings. *)
Definition expanded (unicodeFold : string -> string -> bool) (d : ResourceData)
    (yml_path repo_name repo_type branch_name service_connection_id : string)
    : BuildDefinition :=
  {| def_Id := strconv.Atoi (rd_Id d);
     def_Name := Some (rd_name d);
     def_Path := Some (rd_path d);
     def_Revision := Some (rd_revision d);
     def_Repository := Some
       {| repo_Url := Some (if strings.EqualFold unicodeFold repo_type "github"
                            then "https://github.com/" +:+ repo_name +:+ ".git"
                            else "");
          repo_Id := Some repo_name;
          repo_Name := Some repo_name;
          repo_DefaultBranch := Some branch_name;
          repo_Type := Some repo_type;
          repo_Properties := Some {[ "connectedServiceId" := service_connection_id ]} |};
     def_Process := ProcessYaml (Some {| YamlFilename := Some yml_path |});
     def_Queue := Some
       {| queue_Name := Some (rd_agent_pool_name d);
          queue_Pool := Some {| pool_Name := Some (rd_agent_pool_name d) |} |};
     def_QueueStatus := Some QueueStatusEnabled;
     def_Type := Some TypeBuild;
     def_Quality := Some QualityDefinition;
     def_VariableGroups := Some (map buildVariableGroup (rd_variable_groups d)) |}.

(** The filename Flatten extracts from a readable process. *)
Definition yamlFilenameOf (p : process) : string :=
  match p with
  | ProcessMap m =>
      match m !! "yamlFilename" with
      | Some (IString s) => s
      | _ => ""
      end
  | ProcessYaml (Some y) => default "" (YamlFilename y)
  | _ => ""
  end.

(** The [repository] entry Flatten writes. *)
Definition flatRepository (yml_path repo_name repo_type branch_name : string)
    (properties : gmap string string) : gmap string iface :=
  <["yml_path" := IString yml_path]>
  (<["repo_name" := IString repo_name]>
  (<["repo_type" := IString repo_type]>
  (<["branch_name" := IString branch_name]>
  (<["service_connection_id" :=
       IString (default "" (properties !! "connectedServiceId"))]> ∅)))).

Definition flattenedRepository (bd : BuildDefinition) : gmap string iface :=
  flatRepository (yamlFilenameOf (def_Process bd))
    (default "" (def_Repository bd ≫= repo_Name))
    (default "" (def_Repository bd ≫= repo_Type))
    (default "" (def_Repository bd ≫= repo_DefaultBranch))
    (default ∅ (def_Repository bd ≫= repo_Properties)).

Definition groupIds (gs : option (list VariableGroup)) : list Z :=
  match gs with
  | Some gs => omap vg_Id gs
  | None => []
  end.

(** The resource data Flatten leaves for a readable server object. *)
Definition flattened (bd : BuildDefinition) (projectID : string) : ResourceData :=
  {| rd_Id := strconv.Itoa (default 0 (def_Id bd));
     rd_project_id := projectID;
     rd_revision := default 0 (def_Revision bd);
     rd_name := default "" (def_Name bd);
     rd_path := default "" (def_Path bd);
     rd_variable_groups := groupIds (def_VariableGroups bd);
     rd_agent_pool_name := default "" ((def_Queue bd ≫= queue_Pool) ≫= pool_Name);
     rd_repository := [flattenedRepository bd] |}.


(** The state a callback leaves after one logged remote call. *)
Definition afterCall {S} (st : State S) (server : S) (call : RemoteCall) : State S :=
  {| st_data := st_data st; st_server := server; st_calls := st_calls st ++ [call] |}.

(** ** The importer *)

Section importer.

Context {S : Type}.

(** [ParseImportedProjectIDAndID], a helper of this repository outside the
    resource file, taken as a parameter: given the client (here the server
    behind it) and the imported identifier it yields the project ID and the
    definition ID, or an error. *)
Variable ParseImportedProjectIDAndID : string -> S -> S * outcome (string * Z).

(** The [State] function of the resource's [Importer]. On success it
    returns the one-element slice holding [d] itself. *)
Definition importerState (st : State S) : State S * outcome (list ResourceData) :=
  let '(server, r) := ParseImportedProjectIDAndID (rd_Id (st_data st)) (st_server st) in
  let st := {| st_data := st_data st; st_server := server; st_calls := st_calls st |} in
  match r with
  | Panic => (st, Panic)
  | Err err =>
      (st, Err (fmt.Errorf_v
                  "Error parsing the build definition ID from the Terraform resource data: "
                  err))
  | Ok (projectID, buildDefinitionID) =>
      let d := schema.Set_project_id (st_data st) projectID in
      let d := schema.SetId d (fmt.Sprintf_d buildDefinitionID) in
      (withData st d, Ok [d])
  end.

End importer.

(** ** Further vocabulary *)

(** The value of a decimal numeral read left to right after [acc]. *)
Fixpoint uintValue (d : Decimal.uint) (acc : Z) : Z :=
  match d with
  | Decimal.Nil => acc
  | Decimal.D0 l => uintValue l (acc * 10 + 0)
  | Decimal.D1 l => uintValue l (acc * 10 + 1)
  | Decimal.D2 l => uintValue l (acc * 10 + 2)
  | Decimal.D3 l => uintValue l (acc * 10 + 3)
  | Decimal.D4 l => uintValue l (acc * 10 + 4)
  | Decimal.D5 l => uintValue l (acc * 10 + 5)
  | Decimal.D6 l => uintValue l (acc * 10 + 6)
  | Decimal.D7 l => uintValue l (acc * 10 + 7)
  | Decimal.D8 l => uintValue l (acc * 10 + 8)
  | Decimal.D9 l => uintValue l (acc * 10 + 9)
  end.


(** A value of type [int]. *)
Definition isInt (n : Z) : Prop := strconv.minInt <= n <= strconv.maxInt.

(** [calls'] extends [calls] by at most [n] remote calls. *)
Definition extendsBy (n : nat) (calls calls' : list RemoteCall) : Prop :=
  ∃ new : list RemoteCall, calls' = (calls ++ new)%list ∧ (length new <= n)%nat.

(** ** Sample data *)

Module sample.

Definition repository : gmap string iface :=
  <["yml_path" := IString "ci.yml"]>
  (<["repo_name" := IString "org/repo"]>
  (<["repo_type" := IString "GitHub"]>
  (<["branch_name" := IString "master"]>
  (<["service_connection_id" := IString "conn-1"]> ∅)))).

Definition config (id : string) : ResourceData :=
  {| rd_Id := id; rd_project_id := "proj"; rd_revision := 3;
     rd_name := "build"; rd_path := "\"; rd_variable_groups := [1; 2];
     rd_agent_pool_name := "Hosted Ubuntu 1604"; rd_repository := [repository] |}.

Definition noRepository : ResourceData :=
  {| rd_Id := ""; rd_project_id := "proj"; rd_revision := 0;
     rd_name := "build"; rd_path := "\"; rd_variable_groups := [];
     rd_agent_pool_name := "Hosted Ubuntu 1604"; rd_repository := [] |}.

(** A server object as the API could return it, without revision. *)
Definition serverObject (p : process) : BuildDefinition :=
  {| def_Id := Some 7;
     def_Name := Some "build";
     def_Path := Some "\";
     def_Revision := None;
     def_Repository := Some
       {| repo_Url := None; repo_Id := Some "org/repo"; repo_Name := Some "org/repo";
          repo_DefaultBranch := Some "master"; repo_Type := Some "GitHub";
          repo_Properties := Some {[ "connectedServiceId" := "conn-1" ]} |};
     def_Process := p;
     def_Queue := Some {| queue_Name := Some "q";
                          queue_Pool := Some {| pool_Name := Some "pool" |} |};
     def_QueueStatus := Some QueueStatusEnabled;
     def_Type := Some TypeBuild;
     def_Quality := Some QualityDefinition;
     def_VariableGroups := Some [ {| vg_Id := Some 3 |} ] |}.

Definition noUnicode : string -> string -> bool := fun _ _ => false.

(** A client whose every call fails. *)
Definition failingClient : BuildClient unit :=
  {| CreateDefinition := fun _ _ s => (s, Err "create refused");
     GetDefinition := fun _ _ s => (s, Err "get refused");
     UpdateDefinition := fun _ _ _ s => (s, Err "update refused");
     DeleteDefinition := fun _ _ s => (s, Err "delete refused") |}.

(** Modelled from the spec: [tfhelper.ParseProjectIDAndResourceID] is not
    part of the sources at hand. It "parses the composite identifier
    (project ID + definition ID) from the current resource identity" and
    fails when "the identifier cannot be parsed". *)
Definition ParseProjectIDAndResourceID (d : ResourceData) : outcome (string * Z) :=
  match strconv.Atoi (rd_Id d) with
  | Some resourceID => Ok (rd_project_id d, resourceID)
  | None => Err ("strconv.Atoi: parsing " +:+ rd_Id d +:+ ": invalid syntax")
  end.

Definition state (d : ResourceData) : State unit :=
  {| st_data := d; st_server := tt; st_calls := [] |}.

(** A server keeping one definition, to which it gives the ID 7. *)
Definition memoryClient : BuildClient (option BuildDefinition) :=
  {| CreateDefinition := fun definition _ _ =>
       (Some (roundTripServerObject 7 (Some 1) definition),
        Ok (roundTripServerObject 7 (Some 1) definition));
     GetDefinition := fun _ _ s =>
       match s with
       | Some definition => (s, Ok definition)
       | None => (s, Err "definition not found")
       end;
     UpdateDefinition := fun definition _ _ _ =>
       (Some (roundTripServerObject 7 (Some 2) definition),
        Ok (roundTripServerObject 7 (Some 2) definition));
     DeleteDefinition := fun _ _ _ => (None, Ok tt) |}.

Definition serving (d : ResourceData) (server : option BuildDefinition)
    : State (option BuildDefinition) :=
  {| st_data := d; st_server := server; st_calls := [] |}.




(** An import parser for identifiers of the form [proj/<n>]. *)
Definition ParseImportedProjectIDAndID (id : string) (server : unit)
    : unit * outcome (string * Z) :=
  match id with
  | String "p" (String "r" (String "o" (String "j" (String "/" rest)))) =>
      match strconv.Atoi rest with
      | Some n => (server, Ok ("proj", n))
      | None => (server, Err "not a definition ID")
      end
  | _ => (server, Err "not a project path")
  end.

End sample.

(** * Properties *)

(** ** The standard-library models on concrete inputs *)

Example Atoi_42 : strconv.Atoi "42" = Some 42. Proof. reflexivity. Qed.
Example Atoi_neg : strconv.Atoi "-7" = Some (-7). Proof. reflexivity. Qed.
Example Atoi_empty : strconv.Atoi "" = None. Proof. reflexivity. Qed.
Example Atoi_sign_only : strconv.Atoi "+" = None. Proof. reflexivity. Qed.
Example Atoi_word : strconv.Atoi "12a" = None. Proof. reflexivity. Qed.
Example Atoi_range : strconv.Atoi "9223372036854775808" = None. Proof. reflexivity. Qed.
Example Itoa_0 : strconv.Itoa 0 = "0". Proof. reflexivity. Qed.
Example Itoa_neg : strconv.Itoa (-305) = "-305". Proof. reflexivity. Qed.
Example EqualFold_GitHub f : strings.EqualFold f "GitHub" "github" = true.
Proof. reflexivity. Qed.
Example EqualFold_TfsGit f : strings.EqualFold f "TfsGit" "github" = false.
Proof. reflexivity. Qed.


(** ** Expand *)

Lemma expandBuildDefinition_valid unicodeFold d m yml rn rt bn sc :
  rd_repository d = [m] →
  repositoryFields m yml rn rt bn sc →
  expandBuildDefinition unicodeFold d
  = Ok (expanded unicodeFold d yml rn rt bn sc, rd_project_id d).
Proof.
  intros Hrepo (Hyml & Hrn & Hrt & Hbn & Hsc).
  unfold expandBuildDefinition. rewrite Hrepo. cbn.
  rewrite Hrn, Hrt, Hbn, Hsc, Hyml. reflexivity.
Qed.

Lemma sample_repositoryFields :
  repositoryFields sample.repository "ci.yml" "org/repo" "GitHub" "master" "conn-1".
Proof. repeat split; vm_compute; reflexivity. Qed.

(** On ASCII strings [strings.EqualFold] is equality up to the case of the
    letters, whatever the Unicode half does. *)
Lemma lowerByte_fold a b :
  0 <= a < 128 → 0 <= b < 128 → a ≠ b →
  (let lo := if b <? a then b else a in
   let hi := if b <? a then a else b in
   (65 <=? lo) && (lo <=? 90) && (hi =? lo + 97 - 65))
  = (lowerByte a =? lowerByte b).
Proof.
  intros Ha Hb Hab. unfold lowerByte. cbv zeta.
  destruct (Z.ltb_spec b a);
  repeat match goal with
         | |- context [?x <? ?y] => destruct (Z.ltb_spec x y)
         | |- context [?x <=? ?y] => destruct (Z.leb_spec x y)
         | |- context [?x =? ?y] => destruct (Z.eqb_spec x y)
         end; cbn in *; try reflexivity; lia.
Qed.

Lemma lor_below_128 a b : 0 <= a < 128 → 0 <= b < 128 → Z.lor a b < 128.
Proof.
  intros Ha Hb.
  assert (Hnn : 0 <= Z.lor a b) by (apply Z.lor_nonneg; lia).
  destruct (Z.eq_dec (Z.lor a b) 0) as [->|Hnz]; [lia|].
  change 128 with (2 ^ 7). apply Z.log2_lt_pow2; [lia|].
  rewrite Z.log2_lor by lia.
  apply Z.max_lub_lt.
  - destruct (Z.eq_dec a 0) as [->|]; [cbn; lia|].
    apply Z.log2_lt_pow2; lia.
  - destruct (Z.eq_dec b 0) as [->|]; [cbn; lia|].
    apply Z.log2_lt_pow2; lia.
Qed.

Lemma byteOf_range c : 0 <= strings.byteOf c < 256.
Proof.
  unfold strings.byteOf. pose proof (N_ascii_bounded c). lia.
Qed.

Lemma EqualFold_ascii unicodeFold s t :
  isASCII s = true → isASCII t = true →
  strings.EqualFold unicodeFold s t = equalIgnoringCase s t.
Proof.
  revert t. induction s as [|a s IH]; intros [|b t] Hs Ht; try reflexivity.
  cbn in Hs, Ht. apply andb_true_iff in Hs as [Ha Hs], Ht as [Hb Ht].
  apply Z.ltb_lt in Ha, Hb. unfold strings.RuneSelf in *.
  pose proof (byteOf_range a) as Ra. pose proof (byteOf_range b) as Rb.
  cbn [strings.EqualFold equalIgnoringCase]. cbv zeta.
  pose proof (lor_below_128 _ _ (conj (proj1 Ra) Ha) (conj (proj1 Rb) Hb)) as Hlor.
  destruct (Z.leb_spec strings.RuneSelf (Z.lor (strings.byteOf a) (strings.byteOf b)))
    as [Hge|_]; [unfold strings.RuneSelf in Hge; lia|].
  destruct (Z.eqb_spec (strings.byteOf b) (strings.byteOf a)) as [Heq|Hne].
  - rewrite Heq, Z.eqb_refl. cbn. apply IH; assumption.
  - rewrite lowerByte_fold by (try lia; congruence).
    destruct (lowerByte (strings.byteOf a) =? lowerByte (strings.byteOf b)); cbn.
    + apply IH; assumption.
    + reflexivity.
Qed.

(** C2. For a config with one well-typed repository entry, Expand yields a
    definition whose repository URL is [https://github.com/<repo_name>.git]
    when [strings.EqualFold(repo_type, "github")] holds and the empty string
    for every other [repo_type]; on an ASCII [repo_type] that test is
    equality with [github] up to the case of the letters. *)
Theorem expand_repository_url unicodeFold d m yml rn rt bn sc :
  rd_repository d = [m] →
  repositoryFields m yml rn rt bn sc →
  ∃ bd projectID repo,
    expandBuildDefinition unicodeFold d = Ok (bd, projectID) ∧
    def_Repository bd = Some repo ∧
    repo_Url repo =
      Some (if strings.EqualFold unicodeFold rt "github"
            then "https://github.com/" +:+ rn +:+ ".git"
            else "") ∧
    (isASCII rt = true →
     repo_Url repo =
       Some (if equalIgnoringCase rt "github"
             then "https://github.com/" +:+ rn +:+ ".git"
             else "")).
Proof.
  intros Hrepo Hfields.
  eexists _, _, _. split.
  - exact (expandBuildDefinition_valid unicodeFold d m yml rn rt bn sc Hrepo Hfields).
  - split; [reflexivity|]. split; [reflexivity|].
    intros Hascii. cbn.
    rewrite (EqualFold_ascii unicodeFold rt "github" Hascii eq_refl). reflexivity.
Qed.

Lemma expand_repository_url_witness :
  ∃ bd projectID repo,
    expandBuildDefinition sample.noUnicode (sample.config "") = Ok (bd, projectID) ∧
    def_Repository bd = Some repo ∧
    repo_Url repo =
      Some (if strings.EqualFold sample.noUnicode "GitHub" "github"
            then "https://github.com/" +:+ "org/repo" +:+ ".git"
            else "") ∧
    (isASCII "GitHub" = true →
     repo_Url repo =
       Some (if equalIgnoringCase "GitHub" "github"
             then "https://github.com/" +:+ "org/repo" +:+ ".git"
             else "")).
Proof.
  apply (expand_repository_url sample.noUnicode (sample.config "") sample.repository
           "ci.yml" "org/repo" "GitHub" "master" "conn-1").
  - reflexivity.
  - exact sample_repositoryFields.
Defined.

(** C7. Expand takes the definition's ID from the resource identifier
    exactly when [strconv.Atoi] parses it; an empty or unparsable identifier
    leaves the ID nil. *)
Theorem expand_id_from_identifier unicodeFold d m yml rn rt bn sc :
  rd_repository d = [m] →
  repositoryFields m yml rn rt bn sc →
  ∃ bd projectID,
    expandBuildDefinition unicodeFold d = Ok (bd, projectID) ∧
    def_Id bd = strconv.Atoi (rd_Id d) ∧
    (∀ n, def_Id bd = Some n ↔ strconv.Atoi (rd_Id d) = Some n) ∧
    (def_Id bd = None ↔ strconv.Atoi (rd_Id d) = None) ∧
    (rd_Id d = "" → def_Id bd = None).
Proof.
  intros Hrepo Hfields.
  eexists _, _. split.
  - exact (expandBuildDefinition_valid unicodeFold d m yml rn rt bn sc Hrepo Hfields).
  - cbn. repeat split; try tauto.
    intros ->. reflexivity.
Qed.

Lemma expand_id_from_identifier_witness :
  ∃ bd projectID,
    expandBuildDefinition sample.noUnicode (sample.config "42") = Ok (bd, projectID) ∧
    def_Id bd = strconv.Atoi "42" ∧
    (∀ n, def_Id bd = Some n ↔ strconv.Atoi "42" = Some n) ∧
    (def_Id bd = None ↔ strconv.Atoi "42" = None) ∧
    ("42" = "" → def_Id bd = None).
Proof.
  apply (expand_id_from_identifier sample.noUnicode (sample.config "42") sample.repository
           "ci.yml" "org/repo" "GitHub" "master" "conn-1").
  - reflexivity.
  - exact sample_repositoryFields.
Defined.

(** C9. The definition Expand builds is queue-enabled, of type Build and
    quality Definition; its queue name and its pool name are both the
    config's [agent_pool_name]; its repository Id and Name are both the
    entry's [repo_name]. *)
Theorem expand_fixed_fields unicodeFold d m yml rn rt bn sc :
  rd_repository d = [m] →
  repositoryFields m yml rn rt bn sc →
  ∃ bd projectID queue pool repo,
    expandBuildDefinition unicodeFold d = Ok (bd, projectID) ∧
    def_QueueStatus bd = Some QueueStatusEnabled ∧
    def_Type bd = Some TypeBuild ∧
    def_Quality bd = Some QualityDefinition ∧
    def_Queue bd = Some queue ∧
    queue_Name queue = Some (rd_agent_pool_name d) ∧
    queue_Pool queue = Some pool ∧
    pool_Name pool = Some (rd_agent_pool_name d) ∧
    def_Repository bd = Some repo ∧
    repo_Id repo = Some rn ∧
    repo_Name repo = Some rn.
Proof.
  intros Hrepo Hfields.
  eexists _, _, _, _, _. split.
  - exact (expandBuildDefinition_valid unicodeFold d m yml rn rt bn sc Hrepo Hfields).
  - cbn. repeat split; reflexivity.
Qed.

Lemma expand_fixed_fields_witness :
  ∃ bd projectID queue pool repo,
    expandBuildDefinition sample.noUnicode (sample.config "42") = Ok (bd, projectID) ∧
    def_QueueStatus bd = Some QueueStatusEnabled ∧
    def_Type bd = Some TypeBuild ∧
    def_Quality bd = Some QualityDefinition ∧
    def_Queue bd = Some queue ∧
    queue_Name queue = Some "Hosted Ubuntu 1604" ∧
    queue_Pool queue = Some pool ∧
    pool_Name pool = Some "Hosted Ubuntu 1604" ∧
    def_Repository bd = Some repo ∧
    repo_Id repo = Some "org/repo" ∧
    repo_Name repo = Some "org/repo".
Proof.
  apply (expand_fixed_fields sample.noUnicode (sample.config "42") sample.repository
           "ci.yml" "org/repo" "GitHub" "master" "conn-1").
  - reflexivity.
  - exact sample_repositoryFields.
Defined.

Lemma expandBuildDefinition_no_repository unicodeFold d :
  length (rd_repository d) ≠ 1%nat →
  expandBuildDefinition unicodeFold d
  = Err "Unexpectedly did not find repository metadata in the resource data".
Proof.
  intros Hlen. unfold expandBuildDefinition.
  destruct (Nat.eqb_spec (length (rd_repository d)) 1) as [Heq|_]; [contradiction|].
  reflexivity.
Qed.

(** C4. With zero or several [repository] entries Expand returns the
    invalid-input error and no definition; Create and Update then return
    that error with the resource data, the server and the log of remote
    calls untouched. *)
Theorem expand_rejects_repository_count unicodeFold (S : Type) (clients : BuildClient S)
    (parse : ResourceData → outcome (string * Z)) (st : State S) :
  length (rd_repository (st_data st)) ≠ 1%nat →
  expandBuildDefinition unicodeFold (st_data st)
  = Err "Unexpectedly did not find repository metadata in the resource data" ∧
  resourceBuildDefinitionCreate unicodeFold clients parse st
  = Returned (Some ("Error creating resource Build Definition: " +:+
                    "Unexpectedly did not find repository metadata in the resource data"))
             st ∧
  resourceBuildDefinitionUpdate unicodeFold clients st
  = Returned (Some "Unexpectedly did not find repository metadata in the resource data")
             st.
Proof.
  intros Hlen.
  pose proof (expandBuildDefinition_no_repository unicodeFold _ Hlen) as Hexp.
  unfold resourceBuildDefinitionCreate, resourceBuildDefinitionUpdate.
  rewrite Hexp. repeat split.
Qed.

Lemma expand_rejects_repository_count_witness :
  expandBuildDefinition sample.noUnicode sample.noRepository
  = Err "Unexpectedly did not find repository metadata in the resource data" ∧
  resourceBuildDefinitionCreate sample.noUnicode sample.failingClient
    sample.ParseProjectIDAndResourceID (sample.state sample.noRepository)
  = Returned (Some ("Error creating resource Build Definition: " +:+
                    "Unexpectedly did not find repository metadata in the resource data"))
             (sample.state sample.noRepository) ∧
  resourceBuildDefinitionUpdate sample.noUnicode sample.failingClient
    (sample.state sample.noRepository)
  = Returned (Some "Unexpectedly did not find repository metadata in the resource data")
             (sample.state sample.noRepository).
Proof.
  apply (expand_rejects_repository_count sample.noUnicode unit sample.failingClient
           sample.ParseProjectIDAndResourceID (sample.state sample.noRepository)).
  cbn. lia.
Defined.

(** ** Flatten *)

Lemma flatRepository_fields yml rn rt bn properties :
  repositoryFields (flatRepository yml rn rt bn properties) yml rn rt bn
    (default "" (properties !! "connectedServiceId")).
Proof.
  unfold repositoryFields, flatRepository.
  repeat split; repeat (rewrite lookup_insert_ne by discriminate);
    apply lookup_insert_eq.
Qed.

(** [flattenRepository] returns its one entry when the process and the
    repository are readable, and panics otherwise. *)
Lemma flattenRepository_spec bd :
  flattenRepository bd
  = if processReadable (def_Process bd) && repositoryReadable (def_Repository bd)
    then Ok [flattenedRepository bd] else Panic.
Proof.
  unfold flattenRepository, flattenedRepository, repositoryReadable.
  destruct (def_Process bd) as [|pm|[[[f|]]|]|]; cbn -[flatRepository];
    try reflexivity;
    try destruct (pm !! "yamlFilename") as [[|s| |]|]; cbn -[flatRepository];
    try reflexivity;
    (destruct (def_Repository bd) as [repo|]; cbn -[flatRepository]; [|reflexivity];
     destruct (repo_Name repo); cbn -[flatRepository]; [|reflexivity];
     destruct (repo_Type repo); cbn -[flatRepository]; [|reflexivity];
     destruct (repo_DefaultBranch repo); cbn -[flatRepository]; [|reflexivity];
     destruct (repo_Properties repo); cbn -[flatRepository]; reflexivity).
Qed.

Lemma flattenVariableGroups_spec bd :
  flattenVariableGroups bd
  = if groupsReadable (def_VariableGroups bd)
    then Ok (groupIds (def_VariableGroups bd)) else Panic.
Proof.
  unfold flattenVariableGroups, groupsReadable, groupIds.
  destruct (def_VariableGroups bd) as [gs|]; [|reflexivity].
  induction gs as [|[[id|]] gs IH]; cbn; try reflexivity.
  rewrite IH. destruct (forallb _ gs); reflexivity.
Qed.

(** Flatten returns the flattened resource data for a readable server
    object and panics on every other one; it never returns an [error]. *)
Lemma flattenBuildDefinition_spec d bd projectID :
  flattenBuildDefinition d bd projectID
  = if flattenable bd then Ok (flattened bd projectID) else Panic.
Proof.
  unfold flattenBuildDefinition, flattenable, flattened, queueReadable.
  destruct (def_Id bd) as [id|]; [|reflexivity].
  destruct (def_Queue bd) as [queue|]; [|reflexivity].
  cbn -[flattenRepository flattenVariableGroups flattenedRepository].
  destruct (queue_Pool queue) as [pool|]; [|reflexivity].
  cbn -[flattenRepository flattenVariableGroups flattenedRepository].
  rewrite flattenRepository_spec, flattenVariableGroups_spec.
  destruct (processReadable (def_Process bd)); [|reflexivity].
  destruct (repositoryReadable (def_Repository bd)); [|reflexivity].
  destruct (groupsReadable (def_VariableGroups bd)); reflexivity.
Qed.

Lemma flattenBuildDefinition_never_errs d bd projectID e :
  flattenBuildDefinition d bd projectID ≠ Err e.
Proof.
  rewrite flattenBuildDefinition_spec. destruct (flattenable bd); discriminate.
Qed.


Lemma groupsReadable_buildVariableGroup ids :
  groupsReadable (Some (map buildVariableGroup ids)) = true.
Proof. cbn. induction ids as [|id ids IH]; cbn; [reflexivity|exact IH]. Qed.

Lemma flattenable_unreadable_process bd :
  processReadable (def_Process bd) = false → flattenable bd = false.
Proof.
  intros Hp. unfold flattenable. rewrite Hp.
  destruct (bool_decide _), (queueReadable _); reflexivity.
Qed.

Lemma flattenable_withProcess p bd :
  flattenable (withProcess ProcessNil bd) = true →
  processReadable p = true →
  flattenable (withProcess p bd) = true.
Proof.
  unfold flattenable. cbn. intros Hbd ->.
  rewrite !andb_true_iff in Hbd |- *. tauto.
Qed.

(** C8. Flatten of a readable server object succeeds whether or not the
    revision is set: an unset revision gives revision [0], a set revision
    gives that value. *)
Theorem flatten_revision d bd projectID :
  flattenable bd = true →
  ∃ d',
    flattenBuildDefinition d bd projectID = Ok d' ∧
    (def_Revision bd = None → rd_revision d' = 0) ∧
    (∀ r, def_Revision bd = Some r → rd_revision d' = r).
Proof.
  intros Hbd. exists (flattened bd projectID).
  rewrite flattenBuildDefinition_spec, Hbd.
  split; [reflexivity|]. cbn. split.
  - intros ->. reflexivity.
  - intros r ->. reflexivity.
Qed.

Lemma flatten_revision_witness :
  ∃ d',
    flattenBuildDefinition sample.noRepository (sample.serverObject ProcessNil) "proj"
    = Ok d' ∧
    (def_Revision (sample.serverObject ProcessNil) = None → rd_revision d' = 0) ∧
    (∀ r, def_Revision (sample.serverObject ProcessNil) = Some r → rd_revision d' = r).
Proof.
  apply (flatten_revision sample.noRepository (sample.serverObject ProcessNil) "proj").
  reflexivity.
Defined.

(** C5. A server object whose process is a generic map with the string
    [filename] under [yamlFilename] and the same object with a typed YAML
    process of that filename flatten to the same resource data, whose
    [yml_path] is [filename]. *)
Theorem flatten_yaml_filename_either_shape d bd projectID m filename :
  flattenable (withProcess ProcessNil bd) = true →
  m !! "yamlFilename" = Some (IString filename) →
  ∃ d' entry,
    flattenBuildDefinition d (withProcess (ProcessMap m) bd) projectID = Ok d' ∧
    flattenBuildDefinition d
      (withProcess (ProcessYaml (Some {| YamlFilename := Some filename |})) bd) projectID
    = Ok d' ∧
    rd_repository d' = [entry] ∧
    entry !! "yml_path" = Some (IString filename).
Proof.
  intros Hbd Hm.
  exists (flattened (withProcess (ProcessMap m) bd) projectID),
    (flattenedRepository (withProcess (ProcessMap m) bd)).
  rewrite !flattenBuildDefinition_spec.
  rewrite !flattenable_withProcess; try assumption; try reflexivity;
    [|cbn; rewrite Hm; reflexivity].
  split; [reflexivity|]. split.
  - unfold flattened, flattenedRepository. cbn. rewrite Hm. reflexivity.
  - split; [reflexivity|].
    unfold flattenedRepository. cbn. rewrite Hm. apply flatRepository_fields.
Qed.

Lemma flatten_yaml_filename_either_shape_witness :
  ∃ d' entry,
    flattenBuildDefinition sample.noRepository
      (withProcess (ProcessMap {[ "yamlFilename" := IString "azure-pipelines.yml" ]})
         (sample.serverObject ProcessOther)) "proj" = Ok d' ∧
    flattenBuildDefinition sample.noRepository
      (withProcess (ProcessYaml (Some {| YamlFilename := Some "azure-pipelines.yml" |}))
         (sample.serverObject ProcessOther)) "proj" = Ok d' ∧
    rd_repository d' = [entry] ∧
    entry !! "yml_path" = Some (IString "azure-pipelines.yml").
Proof.
  apply (flatten_yaml_filename_either_shape sample.noRepository
           (sample.serverObject ProcessOther) "proj"
           {[ "yamlFilename" := IString "azure-pipelines.yml" ]} "azure-pipelines.yml").
  - reflexivity.
  - vm_compute. reflexivity.
Defined.

(** C1. Expand of a config with one well-typed repository entry, answered
    by the server with the request itself under an assigned ID and revision,
    flattens to resource data with the original [name], [path],
    [repo_name], [repo_type], [branch_name], [yml_path] and
    [service_connection_id]. *)
Theorem expand_flatten_roundtrip unicodeFold d m yml rn rt bn sc d0 id revision :
  rd_repository d = [m] →
  repositoryFields m yml rn rt bn sc →
  ∃ bd projectID d' entry,
    expandBuildDefinition unicodeFold d = Ok (bd, projectID) ∧
    flattenBuildDefinition d0 (roundTripServerObject id revision bd) projectID = Ok d' ∧
    rd_name d' = rd_name d ∧
    rd_path d' = rd_path d ∧
    rd_repository d' = [entry] ∧
    repositoryFields entry yml rn rt bn sc.
Proof.
  intros Hrepo Hfields.
  exists (expanded unicodeFold d yml rn rt bn sc), (rd_project_id d).
  exists (flattened (roundTripServerObject id revision
                       (expanded unicodeFold d yml rn rt bn sc)) (rd_project_id d)).
  eexists. split.
  - exact (expandBuildDefinition_valid unicodeFold d m yml rn rt bn sc Hrepo Hfields).
  - rewrite flattenBuildDefinition_spec.
    assert (flattenable (roundTripServerObject id revision
                           (expanded unicodeFold d yml rn rt bn sc)) = true) as ->.
    { unfold flattenable. cbn -[groupsReadable].
      rewrite groupsReadable_buildVariableGroup. reflexivity. }
    split; [reflexivity|]. split; [reflexivity|]. split; [reflexivity|].
    split; [reflexivity|].
    unfold flattenedRepository. cbn -[flatRepository].
    pose proof (flatRepository_fields yml rn rt bn {[ "connectedServiceId" := sc ]}) as H.
    rewrite lookup_singleton_eq in H. exact H.
Qed.

Lemma expand_flatten_roundtrip_witness :
  ∃ bd projectID d' entry,
    expandBuildDefinition sample.noUnicode (sample.config "") = Ok (bd, projectID) ∧
    flattenBuildDefinition sample.noRepository (roundTripServerObject 7 (Some 1) bd)
      projectID = Ok d' ∧
    rd_name d' = rd_name (sample.config "") ∧
    rd_path d' = rd_path (sample.config "") ∧
    rd_repository d' = [entry] ∧
    repositoryFields entry "ci.yml" "org/repo" "GitHub" "master" "conn-1".
Proof.
  apply (expand_flatten_roundtrip sample.noUnicode (sample.config "") sample.repository
           "ci.yml" "org/repo" "GitHub" "master" "conn-1" sample.noRepository 7 (Some 1)).
  - reflexivity.
  - exact sample_repositoryFields.
Defined.

(** The last clause of C10, read literally, does not hold: a nil process is
    neither of the two probed shapes and flattens without a panic, and a
    typed YAML process whose filename pointer is nil panics. *)
Lemma process_shapes_handled_safely_counterexample :
  ¬ (∀ p bd,
       flattenable (withProcess ProcessNil bd) = true →
       flattenRepository (withProcess p bd) ≠ Panic ↔
       (∃ m s, p = ProcessMap m ∧ m !! "yamlFilename" = Some (IString s)) ∨
       (∃ y, p = ProcessYaml y)).
Proof.
  intros H.
  destruct (H ProcessNil (sample.serverObject ProcessNil) eq_refl) as [Hsafe _].
  assert (flattenRepository (withProcess ProcessNil (sample.serverObject ProcessNil))
          ≠ Panic) as Hok.
  { rewrite flattenRepository_spec. cbn. congruence. }
  destruct (Hsafe Hok) as [(m & s & Hp & _)|(y & Hp)]; discriminate.
Qed.

(** C10 (amended). Flatten is partial on process shapes. A generic map
    without a string under [yamlFilename] makes the type assertion in
    [flattenRepository] fail, and so does a typed YAML process without a
    filename make its dereference fail: both panic. On an otherwise readable
    server object a map carrying a string [yamlFilename] and a typed YAML
    process carrying a filename give that filename as [yml_path], and a
    process of any other shape passes both probes and gives the empty
    [yml_path]. *)
Theorem flatten_process_shapes d bd projectID :
  (∀ m, (∀ s, m !! "yamlFilename" ≠ Some (IString s)) →
        flattenRepository (withProcess (ProcessMap m) bd) = Panic ∧
        flattenBuildDefinition d (withProcess (ProcessMap m) bd) projectID = Panic) ∧
  (∀ y, (∀ p, y = Some p → YamlFilename p = None) →
        flattenRepository (withProcess (ProcessYaml y) bd) = Panic ∧
        flattenBuildDefinition d (withProcess (ProcessYaml y) bd) projectID = Panic) ∧
  (flattenable (withProcess ProcessNil bd) = true →
   (∀ m s, m !! "yamlFilename" = Some (IString s) →
           ∃ d' entry,
             flattenBuildDefinition d (withProcess (ProcessMap m) bd) projectID = Ok d' ∧
             rd_repository d' = [entry] ∧ entry !! "yml_path" = Some (IString s)) ∧
   (∀ s, ∃ d' entry,
           flattenBuildDefinition d
             (withProcess (ProcessYaml (Some {| YamlFilename := Some s |})) bd) projectID
           = Ok d' ∧
           rd_repository d' = [entry] ∧ entry !! "yml_path" = Some (IString s)) ∧
   (∀ p, p = ProcessNil ∨ p = ProcessOther →
         ∃ d' entry,
           flattenBuildDefinition d (withProcess p bd) projectID = Ok d' ∧
           rd_repository d' = [entry] ∧ entry !! "yml_path" = Some (IString ""))).
Proof.
  split; [|split].
  - intros m Hm.
    assert (processReadable (def_Process (withProcess (ProcessMap m) bd)) = false) as Hp.
    { cbn. destruct (m !! "yamlFilename") as [[|s| |]|] eqn:E; try reflexivity.
      destruct (Hm s eq_refl). }
    split.
    + rewrite flattenRepository_spec, Hp. reflexivity.
    + rewrite flattenBuildDefinition_spec, (flattenable_unreadable_process _ Hp).
      reflexivity.
  - intros y Hy.
    assert (processReadable (def_Process (withProcess (ProcessYaml y) bd)) = false) as Hp.
    { cbn. destruct y as [p|]; [|reflexivity].
      rewrite (Hy p eq_refl). reflexivity. }
    split.
    + rewrite flattenRepository_spec, Hp. reflexivity.
    + rewrite flattenBuildDefinition_spec, (flattenable_unreadable_process _ Hp).
      reflexivity.
  - intros Hbd. split; [|split].
    + intros m s Hm.
      exists (flattened (withProcess (ProcessMap m) bd) projectID),
        (flattenedRepository (withProcess (ProcessMap m) bd)).
      rewrite flattenBuildDefinition_spec, flattenable_withProcess;
        [|assumption|cbn; rewrite Hm; reflexivity].
      split; [reflexivity|]. split; [reflexivity|].
      unfold flattenedRepository. cbn. rewrite Hm. apply flatRepository_fields.
    + intros s. eexists _, _.
      rewrite flattenBuildDefinition_spec, flattenable_withProcess;
        [|assumption|reflexivity].
      split; [reflexivity|]. split; [reflexivity|].
      unfold flattenedRepository. cbn. apply flatRepository_fields.
    + intros p Hp. eexists _, _.
      rewrite flattenBuildDefinition_spec, flattenable_withProcess;
        [|assumption|destruct Hp as [-> | ->]; reflexivity].
      split; [reflexivity|]. split; [reflexivity|].
      unfold flattenedRepository.
      replace (yamlFilenameOf (def_Process (withProcess p bd))) with ""
        by (destruct Hp as [-> | ->]; reflexivity).
      apply flatRepository_fields.
Qed.

Lemma flatten_process_shapes_witness :
  flattenRepository (withProcess (ProcessMap ∅) (sample.serverObject ProcessNil)) = Panic ∧
  flattenBuildDefinition sample.noRepository
    (withProcess (ProcessMap {[ "yamlFilename" := IInt 1 ]})
       (sample.serverObject ProcessNil)) "proj" = Panic ∧
  flattenBuildDefinition sample.noRepository
    (withProcess (ProcessYaml (Some {| YamlFilename := None |}))
       (sample.serverObject ProcessNil)) "proj" = Panic ∧
  (∃ d' entry,
     flattenBuildDefinition sample.noRepository
       (withProcess (ProcessMap {[ "yamlFilename" := IString "ci.yml" ]})
          (sample.serverObject ProcessNil)) "proj" = Ok d' ∧
     rd_repository d' = [entry] ∧ entry !! "yml_path" = Some (IString "ci.yml")) ∧
  (∃ d' entry,
     flattenBuildDefinition sample.noRepository
       (withProcess ProcessOther (sample.serverObject ProcessNil)) "proj" = Ok d' ∧
     rd_repository d' = [entry] ∧ entry !! "yml_path" = Some (IString "")).
Proof.
  destruct (flatten_process_shapes sample.noRepository (sample.serverObject ProcessNil)
              "proj") as (Hmap & Hyaml & Hsafe).
  destruct (Hsafe eq_refl) as (Hstring & _ & Hother).
  split; [|split; [|split; [|split]]].
  - apply (Hmap ∅). intros s Hs. vm_compute in Hs. discriminate.
  - apply (Hmap {[ "yamlFilename" := IInt 1 ]}). intros s Hs.
    vm_compute in Hs. discriminate.
  - apply (Hyaml (Some {| YamlFilename := None |})). intros p [= <-]. reflexivity.
  - apply (Hstring {[ "yamlFilename" := IString "ci.yml" ]} "ci.yml").
    vm_compute. reflexivity.
  - apply (Hother ProcessOther). right. reflexivity.
Defined.

(** ** Lifecycle callbacks *)

(** C6. Delete on resource data whose identifier is empty returns nil at
    once: no remote call is issued, and the resource data, the server and
    the call log are as before. *)
Theorem delete_without_identifier (S : Type) (clients : BuildClient S)
    (parse : ResourceData → outcome (string * Z)) (st : State S) :
  rd_Id (st_data st) = "" →
  resourceBuildDefinitionDelete clients parse st = Returned None st.
Proof.
  intros Hid. unfold resourceBuildDefinitionDelete. rewrite Hid. reflexivity.
Qed.

Lemma delete_without_identifier_witness :
  resourceBuildDefinitionDelete sample.failingClient sample.ParseProjectIDAndResourceID
    (sample.state (sample.config ""))
  = Returned None (sample.state (sample.config "")).
Proof.
  apply (delete_without_identifier unit sample.failingClient
           sample.ParseProjectIDAndResourceID (sample.state (sample.config ""))).
  reflexivity.
Defined.






(** ** A worked scenario *)

(** A GitHub repository [org/repo] with [ci.yml] on the default branch: the
    expanded request points at [https://github.com/org/repo.git], branch
    [master], and a YAML process reading [ci.yml]. *)
Example expand_github_scenario :
  expandBuildDefinition sample.noUnicode (sample.config "")
  = Ok ({| def_Id := None;
           def_Name := Some "build";
           def_Path := Some "\";
           def_Revision := Some 3;
           def_Repository := Some
             {| repo_Url := Some "https://github.com/org/repo.git";
                repo_Id := Some "org/repo";
                repo_Name := Some "org/repo";
                repo_DefaultBranch := Some "master";
                repo_Type := Some "GitHub";
                repo_Properties := Some {[ "connectedServiceId" := "conn-1" ]} |};
           def_Process := ProcessYaml (Some {| YamlFilename := Some "ci.yml" |});
           def_Queue := Some
             {| queue_Name := Some "Hosted Ubuntu 1604";
                queue_Pool := Some {| pool_Name := Some "Hosted Ubuntu 1604" |} |};
           def_QueueStatus := Some QueueStatusEnabled;
           def_Type := Some TypeBuild;
           def_Quality := Some QualityDefinition;
           def_VariableGroups := Some [ {| vg_Id := Some 1 |}; {| vg_Id := Some 2 |} ] |},
        "proj").
Proof.
  rewrite (expandBuildDefinition_valid sample.noUnicode (sample.config "")
             sample.repository "ci.yml" "org/repo" "GitHub" "master" "conn-1"
             eq_refl sample_repositoryFields).
  reflexivity.
Qed.

(** * Further properties *)

(** ** Decimal identifiers *)

Lemma digits_string_of_uint d acc :
  strconv.digits (NilEmpty.string_of_uint d) acc = Some (uintValue d acc).
Proof.
  revert acc.
  induction d; intros acc;
    cbn [NilEmpty.string_of_uint strconv.digits uintValue]; try reflexivity.
  all: match goal with
       | |- context [strconv.digit ?c] =>
           let v := eval vm_compute in (strconv.digit c) in
           change (strconv.digit c) with v
       end; cbv iota beta; apply IHd.
Qed.

Lemma uintValue_acc d p : uintValue d (Z.pos p) = Z.pos (Pos.of_uint_acc d p).
Proof.
  revert p. induction d; intros p; cbn [uintValue Pos.of_uint_acc]; try reflexivity.
  all: match goal with
       | |- uintValue _ ?a = Z.pos (Pos.of_uint_acc _ ?q) =>
           replace a with (Z.pos q) by lia
       end; apply IHd.
Qed.

Lemma uintValue_0 d : uintValue d 0 = Z.of_N (Pos.of_uint d).
Proof.
  induction d; cbn [uintValue Pos.of_uint]; try reflexivity; try exact IHd.
  all: cbn [Z.mul Z.add Z.of_N]; apply uintValue_acc.
Qed.

Lemma digits_to_uint p :
  strconv.digits (NilZero.string_of_uint (Pos.to_uint p)) 0 = Some (Z.pos p).
Proof.
  assert (NilZero.string_of_uint (Pos.to_uint p)
          = NilEmpty.string_of_uint (Pos.to_uint p)) as ->.
  { pose proof (DecimalPos.Unsigned.to_uint_nonnil p).
    destruct (Pos.to_uint p); first [congruence | reflexivity]. }
  rewrite digits_string_of_uint, uintValue_0, DecimalPos.Unsigned.of_to. reflexivity.
Qed.

Lemma string_of_uint_head d :
  ∃ c s, NilZero.string_of_uint d = String c s ∧
         strconv.isSign c = false ∧ (strings.byteOf c =? 45) = false.
Proof.
  destruct d; cbn; eexists _, _; (split; [reflexivity|]); split; reflexivity.
Qed.

(** What [strconv.Itoa] prints, [strconv.Atoi] reads back. *)
Lemma Atoi_Itoa n : isInt n → strconv.Atoi (strconv.Itoa n) = Some n.
Proof.
  unfold isInt. intros Hn. unfold strconv.Itoa.
  assert (Hrange : (strconv.minInt <=? n) && (n <=? strconv.maxInt) = true).
  { apply andb_true_iff. split; apply Z.leb_le; lia. }
  destruct n as [|p|p]; cbn [Z.to_int NilZero.string_of_int].
  - reflexivity.
  - pose proof (digits_to_uint p) as Hd.
    destruct (string_of_uint_head (Pos.to_uint p)) as (c & s & Hs & Hsign & Hminus).
    rewrite Hs in Hd |- *. unfold strconv.Atoi.
    rewrite Hsign, Hd, Hminus, Hrange. reflexivity.
  - pose proof (digits_to_uint p) as Hd.
    destruct (string_of_uint_head (Pos.to_uint p)) as (c & s & Hs & _).
    rewrite Hs in Hd |- *. unfold strconv.Atoi.
    change (strconv.isSign "-") with true. cbv iota.
    rewrite Hd. change (strings.byteOf "-" =? 45) with true. cbv iota.
    change (- Z.pos p) with (Z.neg p). rewrite Hrange. reflexivity.
Qed.

(** ** Expand, all cases *)

Lemma assertString_Ok v s : assertString v = Ok s → v = Some (IString s).
Proof. destruct v as [[]|]; cbn; congruence. Qed.



(** X2. Expand returns a definition exactly for resource data with one
    repository entry whose five fields are strings, and then it returns
    [expanded] of those fields together with the config's project ID. *)
Theorem expand_succeeds_iff unicodeFold d bd projectID :
  expandBuildDefinition unicodeFold d = Ok (bd, projectID) ↔
  ∃ m yml rn rt bn sc,
    rd_repository d = [m] ∧ repositoryFields m yml rn rt bn sc ∧
    bd = expanded unicodeFold d yml rn rt bn sc ∧ projectID = rd_project_id d.
Proof.
  split.
  - unfold expandBuildDefinition.
    destruct (rd_repository d) as [|m [|m' rest]] eqn:Hrepo; cbn; try discriminate.
    destruct (assertString (m !! "repo_name")) as [rn| |] eqn:Hrn; cbn; try discriminate.
    destruct (assertString (m !! "repo_type")) as [rt| |] eqn:Hrt; cbn; try discriminate.
    destruct (assertString (m !! "branch_name")) as [bn| |] eqn:Hbn; cbn;
      try discriminate.
    destruct (assertString (m !! "service_connection_id")) as [sc| |] eqn:Hsc; cbn;
      try discriminate.
    destruct (assertString (m !! "yml_path")) as [yml| |] eqn:Hyml; cbn;
      try discriminate.
    apply assertString_Ok in Hrn, Hrt, Hbn, Hsc, Hyml.
    intros [= <- <-].
    exists m, yml, rn, rt, bn, sc. unfold repositoryFields. auto 10.
  - intros (m & yml & rn & rt & bn & sc & Hrepo & Hfields & -> & ->).
    exact (expandBuildDefinition_valid unicodeFold d m yml rn rt bn sc Hrepo Hfields).
Qed.

(** ** Flatten, all cases *)


(** X4. Flatten overwrites every attribute: its result does not depend on
    what the resource data held before. *)
Theorem flatten_overwrites_resource_data d1 d2 bd projectID :
  flattenBuildDefinition d1 bd projectID = flattenBuildDefinition d2 bd projectID.
Proof. rewrite !flattenBuildDefinition_spec. reflexivity. Qed.

Lemma groupIds_readable gs :
  groupsReadable (Some gs) = true →
  length (omap vg_Id gs) = length gs ∧ Some <$> omap vg_Id gs = vg_Id <$> gs.
Proof.
  cbn. induction gs as [|[[id|]] gs IH]; cbn; intros H; try discriminate.
  - split; reflexivity.
  - destruct (IH H) as [Hlen Hids]. split; [lia|]. f_equal. exact Hids.
Qed.

(** X5. [flattenVariableGroups] returns the groups' IDs in order, one per
    group, when every group has an ID (an absent list gives no IDs), and
    panics as soon as one group has a nil ID. *)
Theorem flattenVariableGroups_ids bd :
  (groupsReadable (def_VariableGroups bd) = true →
   ∃ ids, flattenVariableGroups bd = Ok ids ∧
          length ids = length (default [] (def_VariableGroups bd)) ∧
          Some <$> ids = vg_Id <$> default [] (def_VariableGroups bd)) ∧
  (groupsReadable (def_VariableGroups bd) = false → flattenVariableGroups bd = Panic).
Proof.
  rewrite flattenVariableGroups_spec.
  split; intros H; rewrite H; [|reflexivity].
  exists (groupIds (def_VariableGroups bd)). split; [reflexivity|].
  destruct (def_VariableGroups bd) as [gs|]; cbn; [|split; reflexivity].
  exact (groupIds_readable gs H).
Qed.

Lemma flattenVariableGroups_ids_witness :
  (∃ ids, flattenVariableGroups (sample.serverObject ProcessNil) = Ok ids ∧
          length ids = length (default [] (def_VariableGroups (sample.serverObject ProcessNil))) ∧
          Some <$> ids
          = vg_Id <$> default [] (def_VariableGroups (sample.serverObject ProcessNil))).
Proof.
  apply (flattenVariableGroups_ids (sample.serverObject ProcessNil)). reflexivity.
Defined.







(** ** Lifecycle callbacks, the remaining paths *)





(** X10. When the identifier cannot be parsed, Read and Delete (on a
    non-empty identifier) return the parser's error unchanged and issue no
    remote call; the state is as before. *)
Theorem parse_failure_no_remote_call (S : Type) (clients : BuildClient S)
    (parse : ResourceData → outcome (string * Z)) (st : State S) e :
  parse (st_data st) = Err e →
  rd_Id (st_data st) ≠ "" →
  resourceBuildDefinitionRead clients parse st = Returned (Some e) st ∧
  resourceBuildDefinitionDelete clients parse st = Returned (Some e) st.
Proof.
  intros Hparse Hid.
  unfold resourceBuildDefinitionRead, resourceBuildDefinitionDelete.
  rewrite Hparse.
  destruct (String.eqb_spec (rd_Id (st_data st)) "") as [Hempty|_]; [contradiction|].
  split; reflexivity.
Qed.

Lemma parse_failure_no_remote_call_witness :
  resourceBuildDefinitionRead sample.failingClient sample.ParseProjectIDAndResourceID
    (sample.state (sample.config "abc"))
  = Returned (Some "strconv.Atoi: parsing abc: invalid syntax")
      (sample.state (sample.config "abc")) ∧
  resourceBuildDefinitionDelete sample.failingClient sample.ParseProjectIDAndResourceID
    (sample.state (sample.config "abc"))
  = Returned (Some "strconv.Atoi: parsing abc: invalid syntax")
      (sample.state (sample.config "abc")).
Proof.
  apply (parse_failure_no_remote_call unit sample.failingClient
           sample.ParseProjectIDAndResourceID (sample.state (sample.config "abc"))
           "strconv.Atoi: parsing abc: invalid syntax").
  - reflexivity.
  - discriminate.
Defined.







(** X14. A successful Delete issues the one [DeleteDefinition] call for the
    parsed IDs and leaves the resource data, identifier included, as it
    was. *)
Theorem delete_success (S : Type) (clients : BuildClient S)
    (parse : ResourceData → outcome (string * Z)) (st : State S)
    projectID definitionID server :
  rd_Id (st_data st) ≠ "" →
  parse (st_data st) = Ok (projectID, definitionID) →
  DeleteDefinition clients projectID definitionID (st_server st) = (server, Ok tt) →
  resourceBuildDefinitionDelete clients parse st
  = Returned None
      {| st_data := st_data st;
         st_server := server;
         st_calls := st_calls st ++ [CallDeleteDefinition projectID definitionID] |}.
Proof.
  intros Hid Hparse Hdelete.
  unfold resourceBuildDefinitionDelete, remote.
  destruct (String.eqb_spec (rd_Id (st_data st)) "") as [Hempty|_]; [contradiction|].
  rewrite Hparse, Hdelete. reflexivity.
Qed.

Lemma delete_success_witness :
  resourceBuildDefinitionDelete sample.memoryClient sample.ParseProjectIDAndResourceID
    (sample.serving (sample.config "7") (Some (sample.serverObject ProcessNil)))
  = Returned None
      {| st_data := sample.config "7";
         st_server := None;
         st_calls := [] ++ [CallDeleteDefinition "proj" 7] |}.
Proof.
  apply (delete_success (option BuildDefinition) sample.memoryClient
           sample.ParseProjectIDAndResourceID
           (sample.serving (sample.config "7") (Some (sample.serverObject ProcessNil)))
           "proj" 7 None).
  - discriminate.
  - reflexivity.
  - reflexivity.
Defined.

(** ** What the callbacks never do *)

Lemma remote_inv {S A} (call : RemoteCall) (run : S → S * outcome A)
    (st st' : State S) (r : outcome A) :
  remote call run st = (st', r) →
  st_data st' = st_data st ∧ st_calls st' = (st_calls st ++ [call])%list.
Proof.
  unfold remote. destruct (run (st_server st)) as [server r']. intros [= <- _].
  split; reflexivity.
Qed.

Ltac callback_cases H :=
  repeat match type of H with
         | context [match ?x with _ => _ end] => destruct x eqn:?
         end;
  try discriminate H;
  injection H as ? <-;
  repeat match goal with
         | Hr : remote _ _ _ = _ |- _ => apply remote_inv in Hr as [? ?]
         end;
  unfold withData in *; cbn in *.

Ltac extends_by :=
  repeat match goal with
         | Hc : st_calls ?x = _ |- context [st_calls ?x] => rewrite Hc
         end;
  first
    [ exists []; rewrite app_nil_r; split; [reflexivity | cbn; lia]
    | eexists [_]; split; [reflexivity | cbn; lia]
    | eexists [_; _]; split; [rewrite <- app_assoc; reflexivity | cbn; lia] ].

(** X15. No callback retries or drops a call: whatever it returns, the log
    of remote calls is the old log followed by at most one new call for
    Read, Update and Delete, and by at most two for Create. *)
Theorem callbacks_issue_bounded_calls unicodeFold (S : Type) (clients : BuildClient S)
    (parse : ResourceData → outcome (string * Z)) (st : State S) :
  (∀ err st', resourceBuildDefinitionRead clients parse st = Returned err st' →
              extendsBy 1 (st_calls st) (st_calls st')) ∧
  (∀ err st', resourceBuildDefinitionUpdate unicodeFold clients st = Returned err st' →
              extendsBy 1 (st_calls st) (st_calls st')) ∧
  (∀ err st', resourceBuildDefinitionDelete clients parse st = Returned err st' →
              extendsBy 1 (st_calls st) (st_calls st')) ∧
  (∀ err st', resourceBuildDefinitionCreate unicodeFold clients parse st
              = Returned err st' →
              extendsBy 2 (st_calls st) (st_calls st')).
Proof.
  repeat split; intros err st' H.
  - unfold resourceBuildDefinitionRead in H.
    callback_cases H; extends_by.
  - unfold resourceBuildDefinitionUpdate in H.
    callback_cases H; extends_by.
  - unfold resourceBuildDefinitionDelete in H.
    callback_cases H; extends_by.
  - unfold resourceBuildDefinitionCreate, createBuildDefinition,
      resourceBuildDefinitionRead in H.
    callback_cases H; extends_by.
Qed.

Lemma callbacks_issue_bounded_calls_witness :
  extendsBy 1 (st_calls (sample.state (sample.config "42")))
    (st_calls (afterCall (sample.state (sample.config "42")) tt
                 (CallGetDefinition "proj" 42))).
Proof.
  destruct (callbacks_issue_bounded_calls sample.noUnicode unit sample.failingClient
              sample.ParseProjectIDAndResourceID (sample.state (sample.config "42")))
    as (Hread & _).
  apply (Hread (Some "get refused")
           (afterCall (sample.state (sample.config "42")) tt
              (CallGetDefinition "proj" 42))).
  reflexivity.
Defined.

Ltac keeps_data H :=
  repeat match type of H with
         | context [match ?x with _ => _ end] => destruct x eqn:?
         end;
  try discriminate H;
  injection H as ? <-;
  repeat match goal with
         | Hr : remote _ _ _ = _ |- _ => apply remote_inv in Hr as [? ?]
         end;
  first [reflexivity | assumption | discriminate].

(** X16. A Read or an Update that returns an error has not touched the
    resource data, and Delete never touches it, whatever it returns. *)
Theorem failed_callbacks_keep_resource_data unicodeFold (S : Type)
    (clients : BuildClient S) (parse : ResourceData → outcome (string * Z))
    (st : State S) :
  (∀ e st', resourceBuildDefinitionRead clients parse st = Returned (Some e) st' →
            st_data st' = st_data st) ∧
  (∀ e st', resourceBuildDefinitionUpdate unicodeFold clients st
            = Returned (Some e) st' →
            st_data st' = st_data st) ∧
  (∀ err st', resourceBuildDefinitionDelete clients parse st = Returned err st' →
              st_data st' = st_data st).
Proof.
  repeat split; intros err st' H.
  - unfold resourceBuildDefinitionRead in H. keeps_data H.
  - unfold resourceBuildDefinitionUpdate in H. keeps_data H.
  - unfold resourceBuildDefinitionDelete in H. keeps_data H.
Qed.

Lemma failed_callbacks_keep_resource_data_witness :
  st_data (afterCall (sample.state (sample.config "42")) tt
             (CallUpdateDefinition
                (expanded sample.noUnicode (sample.config "42")
                   "ci.yml" "org/repo" "GitHub" "master" "conn-1")
                "proj" (Some 42)))
  = st_data (sample.state (sample.config "42")).
Proof.
  destruct (failed_callbacks_keep_resource_data sample.noUnicode unit
              sample.failingClient sample.ParseProjectIDAndResourceID
              (sample.state (sample.config "42")))
    as (_ & Hupdate & _).
  apply (Hupdate "update refused").
  vm_compute. reflexivity.
Defined.

(** ** The importer *)

(** X17. When the imported identifier cannot be parsed, the importer returns
    no resource data and the parser's error behind [Error parsing the build
    definition ID from the Terraform resource data: ]; the resource data is
    left as it was. *)
Theorem import_failure (S : Type)
    (parseImported : string → S → S * outcome (string * Z)) (st : State S) server e :
  parseImported (rd_Id (st_data st)) (st_server st) = (server, Err e) →
  importerState parseImported st
  = ({| st_data := st_data st; st_server := server; st_calls := st_calls st |},
     Err ("Error parsing the build definition ID from the Terraform resource data: "
          +:+ e)).
Proof.
  intros Hparse. unfold importerState. rewrite Hparse. reflexivity.
Qed.

Lemma import_failure_witness :
  importerState sample.ParseImportedProjectIDAndID (sample.state (sample.config "7"))
  = ({| st_data := sample.config "7"; st_server := tt; st_calls := [] |},
     Err ("Error parsing the build definition ID from the Terraform resource data: "
          +:+ "not a project path")).
Proof.
  apply (import_failure unit sample.ParseImportedProjectIDAndID
           (sample.state (sample.config "7")) tt "not a project path").
  reflexivity.
Defined.

(** X18. A successful import returns the one resource data it was given,
    with the project ID set, the identifier set to the decimal form of the
    definition ID, which [strconv.Atoi] reads back as that ID, and every
    other attribute untouched; it issues no build API call. *)
Theorem import_success (S : Type)
    (parseImported : string → S → S * outcome (string * Z)) (st : State S)
    server projectID definitionID :
  parseImported (rd_Id (st_data st)) (st_server st)
  = (server, Ok (projectID, definitionID)) →
  isInt definitionID →
  ∃ d,
    importerState parseImported st
    = ({| st_data := d; st_server := server; st_calls := st_calls st |}, Ok [d]) ∧
    rd_project_id d = projectID ∧
    rd_Id d = strconv.Itoa definitionID ∧
    strconv.Atoi (rd_Id d) = Some definitionID ∧
    rd_name d = rd_name (st_data st) ∧
    rd_path d = rd_path (st_data st) ∧
    rd_revision d = rd_revision (st_data st) ∧
    rd_agent_pool_name d = rd_agent_pool_name (st_data st) ∧
    rd_variable_groups d = rd_variable_groups (st_data st) ∧
    rd_repository d = rd_repository (st_data st).
Proof.
  intros Hparse Hint. unfold importerState. rewrite Hparse.
  eexists. split; [reflexivity|]. cbn.
  repeat split. exact (Atoi_Itoa definitionID Hint).
Qed.

Lemma import_success_witness :
  ∃ d,
    importerState sample.ParseImportedProjectIDAndID
      (sample.state (sample.config "proj/12"))
    = ({| st_data := d; st_server := tt; st_calls := [] |}, Ok [d]) ∧
    rd_project_id d = "proj" ∧
    rd_Id d = strconv.Itoa 12 ∧
    strconv.Atoi (rd_Id d) = Some 12 ∧
    rd_name d = "build" ∧
    rd_path d = "\" ∧
    rd_revision d = 3 ∧
    rd_agent_pool_name d = "Hosted Ubuntu 1604" ∧
    rd_variable_groups d = [1; 2] ∧
    rd_repository d = [sample.repository].
Proof.
  apply (import_success unit sample.ParseImportedProjectIDAndID
           (sample.state (sample.config "proj/12")) tt "proj" 12).
  - reflexivity.
  - unfold isInt, strconv.minInt, strconv.maxInt. lia.
Defined.
